(** * android-notes: the landing page and the root shell

  A shallow embedding of the two presentational components of the
  documentation site (the [HomePage] of the landing route, in both of
  its source variants, and the root [Layout]) together with the
  front-matter blocks of the content documents, and the structural
  properties the specification states about them.

  A React element is embedded as a tree: host elements and imported
  components carry a props object and a list of children; JSX text is a
  leaf.  Strings are the UTF-8 bytes of the source text. *)

From Stdlib Require Import ZArith List Ascii String.
From stdpp Require Import gmap strings list fin_maps pretty.

Open Scope string_scope.

(** ** JSX element trees *)

Module Jsx.

(** Components the pages import from the frameworks. Their bodies are
    not part of this repository: an element of a component stays a node
    of the tree. *)
Inductive Component :=
| Card | Cards            (* fumadocs-ui/components/card *)
| Link                    (* next/link *)
| Image                   (* next/image *)
| RootProvider.           (* fumadocs-ui/provider *)

Inductive Tag :=
| Host (name : string)    (* <main>, <section>, <div>, ... *)
| Comp (c : Component).

(** The value of a JSX attribute: a string ([title="x"], [src={"x"}]),
    a number ([width={512}]) or a boolean (a bare attribute such as
    [draggable] is [true]). *)
Inductive PropVal :=
| PStr (s : string)
| PNum (n : Z)
| PBool (b : bool).

#[warnings="-register-all"]
Inductive Node :=
| Text (s : string)
| Elem (tag : Tag) (props : gmap string PropVal) (children : list Node).

(** The props object of an element: attributes are assigned from left to
    right, a later attribute of the same name overwrites an earlier one. *)
Definition jsx_props (attrs : list (string * PropVal)) : gmap string PropVal :=
  foldl (fun m kv => <[kv.1 := kv.2]> m) ∅ attrs.

Definition jsx (t : Tag) (attrs : list (string * PropVal)) (cs : list Node) : Node :=
  Elem t (jsx_props attrs) cs.

Definition tag_of (n : Node) : option Tag :=
  match n with
  | Text _ => None
  | Elem t _ _ => Some t
  end.

Definition props_of (n : Node) : gmap string PropVal :=
  match n with
  | Text _ => ∅
  | Elem _ ps _ => ps
  end.

Definition children_of (n : Node) : list Node :=
  match n with
  | Text _ => []
  | Elem _ _ cs => cs
  end.

(** A string-valued prop; [None] when absent or of another type. *)
Definition str_prop (k : string) (n : Node) : option string :=
  match props_of n !! k with
  | Some (PStr s) => Some s
  | _ => None
  end.

Definition Component_eqb (a b : Component) : bool :=
  match a, b with
  | Card, Card | Cards, Cards | Link, Link | Image, Image
  | RootProvider, RootProvider => true
  | _, _ => false
  end.

Definition Tag_eqb (a b : Tag) : bool :=
  match a, b with
  | Host x, Host y => String.eqb x y
  | Comp x, Comp y => Component_eqb x y
  | _, _ => false
  end.

Definition has_tag (t : Tag) (n : Node) : bool :=
  match tag_of n with
  | Some t' => Tag_eqb t t'
  | None => false
  end.

(** All elements of the tree with the given tag, in document order
    (an element is listed before its descendants). *)
Fixpoint elements_by_tag (t : Tag) (n : Node) : list Node :=
  match n with
  | Text _ => []
  | Elem t' _ cs =>
      (if Tag_eqb t t' then [n] else []) ++ flat_map (elements_by_tag t) cs
  end.

(** The elements among a list of children (text leaves dropped). *)
Definition element_children (n : Node) : list Node :=
  filter (fun c => is_Some (tag_of c)) (children_of n).

End Jsx.

Import Jsx.

(** ** The landing page *)

(** What the router hands to a page component is left open ([Props]):
    both variants declare [HomePage()] without parameters, so whatever is
    passed is dropped. *)

(** The variant of [src/unnamed/part_000]. *)
Module Part000.

Definition HomePage {Props : Type} (_ : Props) : Node :=
  jsx (Host "main") [("className", PStr "flex flex-1 flex-col justify-center text-center")]
    [ (* Hero *)
      jsx (Host "section") [("className", PStr "text-center py-20")]
        [ jsx (Host "div") [("className", PStr "container mx-auto px-6")]
            [ jsx (Host "h1") [("className", PStr "text-7xl text-fd-primary font-extrabold mb-4")]
                [ Text "Android Notes by Me" ];
              jsx (Host "p") [("className", PStr "text-xl text-fd-secondary-foreground mb-6")]
                [ Text "Who am I? You don't need to know that." ];
              jsx (Comp Link)
                [ ("href", PStr "/docs");
                  ("className", PStr "hover:bg-fd-primary hover:text-fd-primary-foreground text-white px-8 py-3 rounded-lg text-lg bg-fd-primary-foreground mt-5 transition-all") ]
                [ Text "Go to docs" ] ] ];
      (* Features *)
      jsx (Host "section") [("id", PStr "features"); ("className", PStr "py-16")]
        [ jsx (Host "div") [("className", PStr "container mx-auto px-6")]
            [ jsx (Comp Cards) []
                [ jsx (Comp Card)
                    [ ("title", PStr "Kotlin OOP");
                      ("description", PStr "Encapsulation, inheritance, polymorphism & abstraction for Android classes");
                      ("icon", PStr "📐");
                      ("draggable", PBool true) ] [];
                  jsx (Comp Card)
                    [ ("title", PStr "Kotlin Functions");
                      ("description", PStr "Declarative, higher‑order & extension functions in Android code");
                      ("icon", PStr "🔧");
                      ("draggable", PBool true) ] [];
                  jsx (Comp Card)
                    [ ("title", PStr "Coroutines & Flows");
                      ("description", PStr "Suspend, launch & Flow streams for async tasks in Android");
                      ("icon", PStr "🚀");
                      ("draggable", PBool true) ] [];
                  jsx (Comp Card)
                    [ ("title", PStr "Conditionals & Loops");
                      ("description", PStr "if/when and for/while constructs for Kotlin control flow");
                      ("icon", PStr "🔁");
                      ("draggable", PBool true) ] [];
                  jsx (Comp Card)
                    [ ("title", PStr "Arrays & Lists");
                      ("description", PStr "Fixed & dynamic collections: Array, List, Set, Map usage");
                      ("icon", PStr "📋");
                      ("draggable", PBool true) ] [];
                  jsx (Comp Card)
                    [ ("title", PStr "Compose Basics");
                      ("description", PStr "Composable functions, state & modifiers for UI in Jetpack Compose");
                      ("icon", PStr "🎨");
                      ("draggable", PBool true) ] [] ] ] ] ].

End Part000.

(** The variant of [src/unnamed/part_001]: it imports [next/image] and
    opens the hero with the site icon; the link carries other classes. *)
Module Part001.

Definition HomePage {Props : Type} (_ : Props) : Node :=
  jsx (Host "main") [("className", PStr "flex flex-1 flex-col justify-center text-center")]
    [ (* Hero *)
      jsx (Host "section") [("className", PStr "text-center py-20")]
        [ jsx (Host "div") [("className", PStr "container mx-auto px-6")]
            [ jsx (Comp Image)
                [ ("src", PStr "/images/android-sunset-icon.png");
                  ("width", PNum 512);
                  ("height", PNum 512);
                  ("alt", PStr "icon");
                  ("className", PStr "text-center mx-auto") ] [];
              jsx (Host "h1") [("className", PStr "text-7xl text-fd-primary font-extrabold mb-4")]
                [ Text "Android Notes by Me" ];
              jsx (Host "p") [("className", PStr "text-xl text-fd-secondary-foreground mb-6")]
                [ Text "Who am I? You don't need to know that." ];
              jsx (Comp Link)
                [ ("href", PStr "/docs");
                  ("className", PStr "dark:hover:bg-fd-primary dark:hover:text-fd-primary-foreground dark:text-white px-8 py-3 rounded-lg text-lg dark:bg-fd-primary-foreground mt-5 transition-all bg-fd-accent hover:bg-fd-primary hover:text-white text-fd-primary-foreground") ]
                [ Text "Go to docs" ] ] ];
      (* Features *)
      jsx (Host "section") [("id", PStr "features"); ("className", PStr "py-16")]
        [ jsx (Host "div") [("className", PStr "container mx-auto px-6")]
            [ jsx (Comp Cards) []
                [ jsx (Comp Card)
                    [ ("title", PStr "Kotlin OOP");
                      ("description", PStr "Encapsulation, inheritance, polymorphism & abstraction for Android classes");
                      ("icon", PStr "📐");
                      ("draggable", PBool true) ] [];
                  jsx (Comp Card)
                    [ ("title", PStr "Kotlin Functions");
                      ("description", PStr "Declarative, higher‑order & extension functions in Android code");
                      ("icon", PStr "🔧");
                      ("draggable", PBool true) ] [];
                  jsx (Comp Card)
                    [ ("title", PStr "Coroutines & Flows");
                      ("description", PStr "Suspend, launch & Flow streams for async tasks in Android");
                      ("icon", PStr "🚀");
                      ("draggable", PBool true) ] [];
                  jsx (Comp Card)
                    [ ("title", PStr "Conditionals & Loops");
                      ("description", PStr "if/when and for/while constructs for Kotlin control flow");
                      ("icon", PStr "🔁");
                      ("draggable", PBool true) ] [];
                  jsx (Comp Card)
                    [ ("title", PStr "Arrays & Lists");
                      ("description", PStr "Fixed & dynamic collections: Array, List, Set, Map usage");
                      ("icon", PStr "📋");
                      ("draggable", PBool true) ] [];
                  jsx (Comp Card)
                    [ ("title", PStr "Compose Basics");
                      ("description", PStr "Composable functions, state & modifiers for UI in Jetpack Compose");
                      ("icon", PStr "🎨");
                      ("draggable", PBool true) ] [] ] ] ] ].

End Part001.

(** ** Reading a rendered landing page *)

Module Home.

Inductive Variant := Plain | WithIcon.

Definition render {Props : Type} (v : Variant) (props : Props) : Node :=
  match v with
  | Plain => Part000.HomePage props
  | WithIcon => Part001.HomePage props
  end.

(** The record a [Card] element is built from. *)
Record FeatureCard := {
  title : string;
  description : string;
  icon : string
}.

Definition card_record (n : Node) : option FeatureCard :=
  t ← str_prop "title" n;
  d ← str_prop "description" n;
  i ← str_prop "icon" n;
  Some {| title := t; description := d; icon := i |}.

(** The sections of the page, in document order. *)
Definition sections (page : Node) : list Node :=
  elements_by_tag (Host "section") page.

Definition is_features (n : Node) : bool :=
  match str_prop "id" n with
  | Some i => String.eqb i "features"
  | None => false
  end.

(** The feature-card section is the one with [id="features"]; the hero
    banner is the section before it, which has no id. *)
Definition features_sections (page : Node) : list Node :=
  List.filter is_features (sections page).

Definition hero_sections (page : Node) : list Node :=
  List.filter (fun n => negb (is_features n)) (sections page).

(** The [Card] elements of the feature-card section. *)
Definition card_elements (page : Node) : list Node :=
  flat_map (elements_by_tag (Comp Card)) (features_sections page).

(** The feature cards of a page; [None] if some [Card] element lacks a
    string title, description or icon. *)
Definition feature_cards (page : Node) : option (list FeatureCard) :=
  mapM card_record (card_elements page).

(** The hero banner lays its content out in one container [div]: the
    items of the banner are the element children of that container. *)
Definition hero_items (page : Node) : list Node :=
  flat_map element_children (flat_map element_children (hero_sections page)).

(** The kinds of the items of the hero banner, in order. *)
Definition hero_shape (page : Node) : list (option Tag) :=
  List.map tag_of (hero_items page).

(** The text of an element: its text leaves, in order. *)
Fixpoint text_content (n : Node) : string :=
  match n with
  | Text s => s
  | Elem _ _ cs => fold_right (fun c acc => text_content c ++ acc) "" cs
  end.

(** The links of a page, each with its target. *)
Definition link_targets (page : Node) : list (option string) :=
  List.map (str_prop "href") (elements_by_tag (Comp Link) page).

Definition nonempty (s : string) : Prop := s ≠ "".

End Home.

(** ** The root shell *)

Module Shell.

(** The font module ([next/font/google]) is not part of the repository:
    its loaders are taken as they are typed there. A loader is given its
    options and returns the generated class name of the family; when the
    options name a CSS variable, the result also carries the class that
    defines that variable. *)
Record FontOptions := {
  subsets : list string;
  variable_name : option string      (* the [variable] option *)
}.

Record NextFont := {
  className : string;
  fontFamily : string                (* [style.fontFamily] *)
}.

Record NextFontWithVariable := {
  font :> NextFont;
  variable : string
}.

(** The class tokens of a [className] value: its maximal runs of
    characters other than ASCII whitespace, in order. *)
Definition is_space (c : ascii) : bool :=
  match nat_of_ascii c with
  | 9 | 10 | 12 | 13 | 32 => true
  | _ => false
  end.

Definition flush (tok : string) : list string :=
  match tok with
  | "" => []
  | _ => [tok]
  end.

Fixpoint tokens_from (tok s : string) : list string :=
  match s with
  | "" => flush tok
  | String c s' =>
      if is_space c then flush tok ++ tokens_from "" s'
      else tokens_from (tok ++ String c "") s'
  end.

Definition class_tokens (s : string) : list string := tokens_from "" s.

Section Layout.

Variable JetBrains_Mono : FontOptions -> NextFont.
Variable Fira_Code : FontOptions -> NextFontWithVariable.

Definition jetbrainsMono : NextFont :=
  JetBrains_Mono {| subsets := ["latin"]; variable_name := None |}.

Definition firaCode : NextFontWithVariable :=
  Fira_Code {| subsets := ["latin"]; variable_name := Some "--fira-code" |}.

(** [children] is a [ReactNode]: any sequence of nodes. *)
Definition Layout (children : list Node) : Node :=
  jsx (Host "html")
    [ ("lang", PStr "en");
      ("className", PStr (className jetbrainsMono ++ " " ++ variable firaCode));
      ("suppressHydrationWarning", PBool true) ]
    [ jsx (Host "body") [("className", PStr "flex flex-col min-h-screen")]
        [ jsx (Comp RootProvider) [] children ] ].

(** The language attribute and the font tokens of a rendered document. *)
Definition document_lang (doc : Node) : option string := str_prop "lang" doc.

Definition document_class (doc : Node) : option string := str_prop "className" doc.

Definition document_tokens (doc : Node) : list string :=
  match document_class doc with
  | Some c => class_tokens c
  | None => []
  end.

End Layout.

End Shell.

(** ** Content documents *)

Module Content.

(** A content document is a text file, held as the list of its lines. It
    opens with a front-matter block between two fence lines; the prose
    after the block is opaque. *)
Definition fence : string := "---".

Definition android_components (body : list string) : list string :=
  [ "---";
    "title: Android App Components";
    "description: Components that comprise and android app";
    "---" ] ++ body.

(** The Jetpack Compose article (its file name is not recorded). *)
Definition jetpack_compose (body : list string) : list string :=
  [ "---";
    "title: Jetpack Compose";
    "description: A guide to using jetpack compose in android.";
    "---" ] ++ body.

(** The front-matter presence scan. The block is the run of lines from
    the opening fence on the first line up to the next fence; a document
    that does not open with a fence, or never closes it, has none. *)
Fixpoint block (ls : list string) : option (list string) :=
  match ls with
  | [] => None
  | l :: ls' => if String.eqb l fence then Some [] else cons l <$> block ls'
  end.

Definition front_matter_lines (doc : list string) : option (list string) :=
  match doc with
  | l :: rest => if String.eqb l fence then block rest else None
  | [] => None
  end.

(** A line [key: value] of the block. *)
Fixpoint split_colon (s : string) : option (string * string) :=
  match s with
  | "" => None
  | String c s' =>
      if Ascii.eqb c ":" then Some ("", s')
      else (fun kv => (String c kv.1, kv.2)) <$> split_colon s'
  end.

Fixpoint ltrim (s : string) : string :=
  match s with
  | String c s' => if Ascii.eqb c " " then ltrim s' else s
  | "" => ""
  end.

Definition field (l : string) : option (string * string) :=
  (fun kv => (kv.1, ltrim kv.2)) <$> split_colon l.

Definition front_matter (doc : list string) : option (gmap string string) :=
  ls ← front_matter_lines doc;
  Some (list_to_map (omap field ls)).

Definition field_of (k : string) (doc : list string) : option string :=
  fm ← front_matter doc; fm !! k.

Definition declares (k : string) (doc : list string) : Prop :=
  is_Some (field_of k doc).

(** The content documents of the source, over any prose bodies. *)
Definition documents (body1 body2 : list string) : list (list string) :=
  [ android_components body1; jetpack_compose body2 ].

End Content.

(** ** UTF-8 *)

Module Utf8.

Open Scope N_scope.

Definition byte (c : ascii) : N := N_of_ascii c.

Definition is_cont (b : N) : bool := (0x80 <=? b) && (b <? 0xC0).

Definition payload (b : N) : N := N.land b 0x3F.

(** The code points of a UTF-8 byte string; [None] on a malformed
    sequence (stray continuation byte, truncated or overlong form,
    surrogate, value above U+10FFFF). *)
Fixpoint decode (s : string) : option (list N) :=
  match s with
  | "" => Some []
  | String c0 s1 =>
      let b0 := byte c0 in
      if b0 <? 0x80 then cons b0 <$> decode s1
      else if b0 <? 0xC2 then None
      else if b0 <? 0xE0 then
        match s1 with
        | String c1 s2 =>
            if is_cont (byte c1)
            then cons (N.lor (N.shiftl (N.land b0 0x1F) 6) (payload (byte c1)))
                   <$> decode s2
            else None
        | _ => None
        end
      else if b0 <? 0xF0 then
        match s1 with
        | String c1 (String c2 s3) =>
            let cp := N.lor (N.shiftl (N.land b0 0x0F) 12)
                        (N.lor (N.shiftl (payload (byte c1)) 6) (payload (byte c2))) in
            if is_cont (byte c1) && is_cont (byte c2)
               && (0x800 <=? cp) && negb ((0xD800 <=? cp) && (cp <=? 0xDFFF))
            then cons cp <$> decode s3
            else None
        | _ => None
        end
      else if b0 <? 0xF5 then
        match s1 with
        | String c1 (String c2 (String c3 s4)) =>
            let cp := N.lor (N.shiftl (N.land b0 0x07) 18)
                        (N.lor (N.shiftl (payload (byte c1)) 12)
                           (N.lor (N.shiftl (payload (byte c2)) 6) (payload (byte c3)))) in
            if is_cont (byte c1) && is_cont (byte c2) && is_cont (byte c3)
               && (0x10000 <=? cp) && (cp <=? 0x10FFFF)
            then cons cp <$> decode s4
            else None
        | _ => None
        end
      else None
  end.

(** The pictograph blocks: Miscellaneous Symbols and Pictographs,
    Emoticons, Ornamental Dingbats, Transport and Map Symbols
    (U+1F300 .. U+1F6FF). A code point there is a symbol of its own,
    not a combining mark, joiner or selector. *)
Definition pictograph (cp : N) : bool := (0x1F300 <=? cp) && (cp <=? 0x1F6FF).

(** A string that is one glyph: a single code point, a pictograph. *)
Definition single_glyph (s : string) : Prop :=
  exists cp, decode s = Some [cp] /\ pictograph cp = true.

End Utf8.

(** ** Walking a tree *)

Module Tree.

(** All elements of a tree, in document order. *)
Fixpoint all_elements (n : Node) : list Node :=
  match n with
  | Text _ => []
  | Elem _ _ cs => n :: flat_map all_elements cs
  end.

Definition has_prop (k : string) (n : Node) : bool :=
  match props_of n !! k with
  | Some _ => true
  | None => false
  end.

(** The elements that carry a target. *)
Definition elements_with_href (n : Node) : list Node :=
  List.filter (has_prop "href") (all_elements n).

End Tree.

(** ** The page components as written *)

(** The JSX of a component, before it is run. An attribute value or a
    child in braces is an expression; besides literals an expression can
    read a name of its surroundings (a parameter, a global, a module
    binding, with a member path as in [props.title]) or call one (as in
    [Date.now()]). Running a component takes these from an environment,
    which stands for everything a render can see besides its own text. *)
Module Source.

Inductive Expr :=
| Lit (v : PropVal)            (* "x", {"x"}, {512}, a bare attribute *)
| Read (path : list string)    (* props.title *)
| Call (path : list string).   (* Date.now() *)

#[warnings="-register-all"]
Inductive Markup :=
| MText (s : string)
| MHole (e : Expr)             (* {e} among the children *)
| MElem (t : Tag) (attrs : list (string * Expr)) (children : list Markup).

Record Env := {
  lookup_var : list string -> option PropVal;
  invoke : list string -> option PropVal
}.

Inductive Access :=
| Looked (path : list string)
| Invoked (path : list string).

(** What an expression takes from the environment. *)
Definition expr_accesses (e : Expr) : list Access :=
  match e with
  | Lit _ => []
  | Read p => [Looked p]
  | Call p => [Invoked p]
  end.

(** What a render takes from the environment: every attribute and every
    hole is evaluated, elements in document order. *)
Fixpoint accesses (m : Markup) : list Access :=
  match m with
  | MText _ => []
  | MHole e => expr_accesses e
  | MElem _ attrs cs =>
      flat_map (fun ke => expr_accesses ke.2) attrs ++ flat_map accesses cs
  end.

(** An unbound name makes the render fail ([None]). *)
Definition eval_expr (env : Env) (e : Expr) : option PropVal :=
  match e with
  | Lit v => Some v
  | Read p => lookup_var env p
  | Call p => invoke env p
  end.

Definition eval_attrs (env : Env) (attrs : list (string * Expr))
  : option (list (string * PropVal)) :=
  mapM (fun ke => v ← eval_expr env ke.2; Some (ke.1, v)) attrs.

(** A value in a hole: a string or a number is shown as text, a boolean
    shows nothing. *)
Definition shown (v : PropVal) : list Node :=
  match v with
  | PStr s => [Text s]
  | PNum n => [Text (pretty n)]
  | PBool _ => []
  end.

(** Running a piece of markup gives the nodes it stands for (one for a
    text or an element, none or one for a hole). *)
Fixpoint eval (env : Env) (m : Markup) : option (list Node) :=
  match m with
  | MText s => Some [Text s]
  | MHole e => v ← eval_expr env e; Some (shown v)
  | MElem t attrs cs =>
      ps ← eval_attrs env attrs;
      ns ← (fix eval_all (l : list Markup) : option (list Node) :=
              match l with
              | [] => Some []
              | c :: l' => x ← eval env c; xs ← eval_all l'; Some (x ++ xs)%list
              end) cs;
      Some [jsx t ps ns]
  end.

(** [HomePage] of [src/unnamed/part_000]. *)
Definition HomePage_part000 : Markup :=
  MElem (Host "main") [("className", Lit (PStr "flex flex-1 flex-col justify-center text-center"))]
    [ (* Hero *)
      MElem (Host "section") [("className", Lit (PStr "text-center py-20"))]
        [ MElem (Host "div") [("className", Lit (PStr "container mx-auto px-6"))]
            [ MElem (Host "h1") [("className", Lit (PStr "text-7xl text-fd-primary font-extrabold mb-4"))]
                [ MText "Android Notes by Me" ];
              MElem (Host "p") [("className", Lit (PStr "text-xl text-fd-secondary-foreground mb-6"))]
                [ MText "Who am I? You don't need to know that." ];
              MElem (Comp Link)
                [ ("href", Lit (PStr "/docs"));
                  ("className", Lit (PStr "hover:bg-fd-primary hover:text-fd-primary-foreground text-white px-8 py-3 rounded-lg text-lg bg-fd-primary-foreground mt-5 transition-all")) ]
                [ MText "Go to docs" ] ] ];
      (* Features *)
      MElem (Host "section") [("id", Lit (PStr "features")); ("className", Lit (PStr "py-16"))]
        [ MElem (Host "div") [("className", Lit (PStr "container mx-auto px-6"))]
            [ MElem (Comp Cards) []
                [ MElem (Comp Card)
                    [ ("title", Lit (PStr "Kotlin OOP"));
                      ("description", Lit (PStr "Encapsulation, inheritance, polymorphism & abstraction for Android classes"));
                      ("icon", Lit (PStr "📐"));
                      ("draggable", Lit (PBool true)) ] [];
                  MElem (Comp Card)
                    [ ("title", Lit (PStr "Kotlin Functions"));
                      ("description", Lit (PStr "Declarative, higher‑order & extension functions in Android code"));
                      ("icon", Lit (PStr "🔧"));
                      ("draggable", Lit (PBool true)) ] [];
                  MElem (Comp Card)
                    [ ("title", Lit (PStr "Coroutines & Flows"));
                      ("description", Lit (PStr "Suspend, launch & Flow streams for async tasks in Android"));
                      ("icon", Lit (PStr "🚀"));
                      ("draggable", Lit (PBool true)) ] [];
                  MElem (Comp Card)
                    [ ("title", Lit (PStr "Conditionals & Loops"));
                      ("description", Lit (PStr "if/when and for/while constructs for Kotlin control flow"));
                      ("icon", Lit (PStr "🔁"));
                      ("draggable", Lit (PBool true)) ] [];
                  MElem (Comp Card)
                    [ ("title", Lit (PStr "Arrays & Lists"));
                      ("description", Lit (PStr "Fixed & dynamic collections: Array, List, Set, Map usage"));
                      ("icon", Lit (PStr "📋"));
                      ("draggable", Lit (PBool true)) ] [];
                  MElem (Comp Card)
                    [ ("title", Lit (PStr "Compose Basics"));
                      ("description", Lit (PStr "Composable functions, state & modifiers for UI in Jetpack Compose"));
                      ("icon", Lit (PStr "🎨"));
                      ("draggable", Lit (PBool true)) ] [] ] ] ] ].

(** [HomePage] of [src/unnamed/part_001]. *)
Definition HomePage_part001 : Markup :=
  MElem (Host "main") [("className", Lit (PStr "flex flex-1 flex-col justify-center text-center"))]
    [ (* Hero *)
      MElem (Host "section") [("className", Lit (PStr "text-center py-20"))]
        [ MElem (Host "div") [("className", Lit (PStr "container mx-auto px-6"))]
            [ MElem (Comp Image)
                [ ("src", Lit (PStr "/images/android-sunset-icon.png"));
                  ("width", Lit (PNum 512));
                  ("height", Lit (PNum 512));
                  ("alt", Lit (PStr "icon"));
                  ("className", Lit (PStr "text-center mx-auto")) ] [];
              MElem (Host "h1") [("className", Lit (PStr "text-7xl text-fd-primary font-extrabold mb-4"))]
                [ MText "Android Notes by Me" ];
              MElem (Host "p") [("className", Lit (PStr "text-xl text-fd-secondary-foreground mb-6"))]
                [ MText "Who am I? You don't need to know that." ];
              MElem (Comp Link)
                [ ("href", Lit (PStr "/docs"));
                  ("className", Lit (PStr "dark:hover:bg-fd-primary dark:hover:text-fd-primary-foreground dark:text-white px-8 py-3 rounded-lg text-lg dark:bg-fd-primary-foreground mt-5 transition-all bg-fd-accent hover:bg-fd-primary hover:text-white text-fd-primary-foreground")) ]
                [ MText "Go to docs" ] ] ];
      (* Features *)
      MElem (Host "section") [("id", Lit (PStr "features")); ("className", Lit (PStr "py-16"))]
        [ MElem (Host "div") [("className", Lit (PStr "container mx-auto px-6"))]
            [ MElem (Comp Cards) []
                [ MElem (Comp Card)
                    [ ("title", Lit (PStr "Kotlin OOP"));
                      ("description", Lit (PStr "Encapsulation, inheritance, polymorphism & abstraction for Android classes"));
                      ("icon", Lit (PStr "📐"));
                      ("draggable", Lit (PBool true)) ] [];
                  MElem (Comp Card)
                    [ ("title", Lit (PStr "Kotlin Functions"));
                      ("description", Lit (PStr "Declarative, higher‑order & extension functions in Android code"));
                      ("icon", Lit (PStr "🔧"));
                      ("draggable", Lit (PBool true)) ] [];
                  MElem (Comp Card)
                    [ ("title", Lit (PStr "Coroutines & Flows"));
                      ("description", Lit (PStr "Suspend, launch & Flow streams for async tasks in Android"));
                      ("icon", Lit (PStr "🚀"));
                      ("draggable", Lit (PBool true)) ] [];
                  MElem (Comp Card)
                    [ ("title", Lit (PStr "Conditionals & Loops"));
                      ("description", Lit (PStr "if/when and for/while constructs for Kotlin control flow"));
                      ("icon", Lit (PStr "🔁"));
                      ("draggable", Lit (PBool true)) ] [];
                  MElem (Comp Card)
                    [ ("title", Lit (PStr "Arrays & Lists"));
                      ("description", Lit (PStr "Fixed & dynamic collections: Array, List, Set, Map usage"));
                      ("icon", Lit (PStr "📋"));
                      ("draggable", Lit (PBool true)) ] [];
                  MElem (Comp Card)
                    [ ("title", Lit (PStr "Compose Basics"));
                      ("description", Lit (PStr "Composable functions, state & modifiers for UI in Jetpack Compose"));
                      ("icon", Lit (PStr "🎨"));
                      ("draggable", Lit (PBool true)) ] [] ] ] ] ].

Definition HomePage (v : Home.Variant) : Markup :=
  match v with
  | Home.Plain => HomePage_part000
  | Home.WithIcon => HomePage_part001
  end.

End Source.

(** ** Class strings and sample fonts *)

Module Classes.

(** A class string that is one token: not empty and free of whitespace. *)
Definition is_token (s : string) : bool :=
  negb (String.eqb s "") &&
  forallb (fun c => negb (Shell.is_space c)) (list_ascii_of_string s).

(** The class tokens of the links of a page. *)
Definition link_tokens (page : Node) : list string :=
  flat_map
    (fun l => match str_prop "className" l with
              | Some c => Shell.class_tokens c
              | None => []
              end)
    (elements_by_tag (Comp Link) page).

(** A token without its [dark:] variant prefix. *)
Definition strip_dark (t : string) : string :=
  if String.prefix "dark:" t
  then String.substring 5 (String.length t - 5) t
  else t.

End Classes.

(** Loaders of the kind the font module provides (a generated class per
    family), to run the shell on. *)
Module Sample.

Definition mono (_ : Shell.FontOptions) : Shell.NextFont :=
  {| Shell.className := "__className_3c557b";
     Shell.fontFamily := "'JetBrains Mono', monospace" |}.

Definition code (o : Shell.FontOptions) : Shell.NextFontWithVariable :=
  {| Shell.font := {| Shell.className := "__className_591c9e";
                      Shell.fontFamily := "'Fira Code', monospace" |};
     Shell.variable := match Shell.variable_name o with
                       | Some _ => "__variable_591c9e"
                       | None => ""
                       end |}.

(** A loader that answers as [mono] for the latin subset alone. *)
Definition mono_latin (o : Shell.FontOptions) : Shell.NextFont :=
  match Shell.subsets o with
  | ["latin"] => mono o
  | _ => {| Shell.className := ""; Shell.fontFamily := "" |}
  end.

End Sample.

(** * Properties *)

Import Home.

(** ** Helper lemmas *)

(** A page component drops its argument. *)
Lemma render_drops_props {P Q : Type} (v : Variant) (p : P) (q : Q) :
  render v p = render v q.
Proof. destruct v; reflexivity. Qed.

Lemma render_unit {P : Type} (v : Variant) (p : P) : render v p = render v tt.
Proof. apply render_drops_props. Qed.

(** Cutting a class string at a space cuts its token list. *)
Lemma tokens_from_space (a b tok : string) :
  Shell.tokens_from tok (a ++ " " ++ b) =
  (Shell.tokens_from tok a ++ Shell.class_tokens b)%list.
Proof.
  revert tok. induction a as [|c a IH]; intros tok.
  - reflexivity.
  - change (String c a ++ " " ++ b) with (String c (a ++ " " ++ b)).
    cbn [Shell.tokens_from].
    destruct (Shell.is_space c).
    + rewrite IH. apply app_assoc.
    + apply IH.
Qed.

Lemma class_tokens_space (a b : string) :
  Shell.class_tokens (a ++ " " ++ b) =
  (Shell.class_tokens a ++ Shell.class_tokens b)%list.
Proof. apply tokens_from_space. Qed.

(** In a props object the last assignment of a name wins. *)
Lemma jsx_props_snoc (attrs : list (string * PropVal)) (k : string) (v : PropVal) :
  jsx_props (attrs ++ [(k, v)]) !! k = Some v.
Proof.
  unfold jsx_props. rewrite foldl_app. cbn [foldl fst snd].
  apply lookup_insert_eq.
Qed.

(** Every element found by tag has that tag. *)
Lemma elements_by_tag_sound (t : Tag) (n : Node) :
  Forall (fun e => has_tag t e = true) (elements_by_tag t n).
Proof.
  revert n. fix IH 1. intros [s | t' ps cs].
  - constructor.
  - cbn [elements_by_tag]. apply Forall_app. split.
    + destruct (Tag_eqb t t') eqn:E; constructor; [ exact E | constructor ].
    + induction cs as [|c cs IHcs]; cbn [flat_map].
      * constructor.
      * apply Forall_app. split; [ apply IH | apply IHcs ].
Qed.

(** The scan of a document stops at the closing fence: the prose after
    the block has no part in it. *)
Lemma block_stops_at_fence (pre body : list string) :
  Forall (fun l => l <> Content.fence) pre ->
  Content.block (pre ++ Content.fence :: body) = Some pre.
Proof.
  induction 1 as [|l pre Hl _ IH]; cbn [app Content.block].
  - reflexivity.
  - apply String.eqb_neq in Hl. rewrite Hl, IH. reflexivity.
Qed.

Lemma front_matter_android_components (body : list string) :
  Content.front_matter (Content.android_components body) =
  Some (list_to_map
          [ ("title", "Android App Components");
            ("description", "Components that comprise and android app") ]).
Proof. reflexivity. Qed.

Lemma front_matter_jetpack_compose (body : list string) :
  Content.front_matter (Content.jetpack_compose body) =
  Some (list_to_map
          [ ("title", "Jetpack Compose");
            ("description", "A guide to using jetpack compose in android.") ]).
Proof. reflexivity. Qed.

(** An expression that takes nothing from the environment is a literal:
    it has the same value in every environment. *)
Lemma eval_expr_pure (env1 env2 : Source.Env) (e : Source.Expr) :
  Source.expr_accesses e = [] -> Source.eval_expr env1 e = Source.eval_expr env2 e.
Proof. destruct e; [ reflexivity | discriminate | discriminate ]. Qed.

Lemma eval_attrs_pure (env1 env2 : Source.Env) (attrs : list (string * Source.Expr)) :
  flat_map (fun ke => Source.expr_accesses ke.2) attrs = [] ->
  Source.eval_attrs env1 attrs = Source.eval_attrs env2 attrs.
Proof.
  unfold Source.eval_attrs.
  induction attrs as [|[k e] attrs IH]; intros H; [ reflexivity | ].
  cbn [flat_map snd] in H. apply app_eq_nil in H as [He Hrest].
  cbn [mapM fst snd]. now rewrite (eval_expr_pure env1 env2 e He), (IH Hrest).
Qed.

(** Markup that takes nothing from the environment stands for the same
    nodes in every environment. *)
Lemma eval_pure (env1 env2 : Source.Env) (m : Source.Markup) :
  Source.accesses m = [] -> Source.eval env1 m = Source.eval env2 m.
Proof.
  revert m. fix IH 1. intros [s | e | t attrs cs] H.
  - reflexivity.
  - cbn [Source.eval]. cbn [Source.accesses] in H.
    now rewrite (eval_expr_pure env1 env2 e H).
  - cbn [Source.accesses] in H. apply app_eq_nil in H as [Ha Hc].
    cbn [Source.eval]. rewrite (eval_attrs_pure env1 env2 attrs Ha).
    destruct (Source.eval_attrs env2 attrs) as [ps|]; [ | reflexivity ].
    cbn [mbind option_bind]. f_equal.
    induction cs as [|c cs IHcs]; [ reflexivity | ].
    cbn [flat_map] in Hc. apply app_eq_nil in Hc as [Hc1 Hc2].
    rewrite (IH c Hc1), (IHcs Hc2). reflexivity.
Qed.

Ltac by_variant v p :=
  rewrite (render_unit v p); destruct v.

(** ** The landing page *)

(** C1. Every render of the landing page, in either variant, has exactly
    six [Card] elements in its feature-card section, and each of them
    has a non-empty title, a non-empty description and a non-empty icon. *)
Theorem landing_page_six_cards (Props : Type) (v : Variant) (props : Props) :
  length (card_elements (render v props)) = 6 /\
  exists cs, feature_cards (render v props) = Some cs /\
    length cs = 6 /\
    Forall (fun c => nonempty (title c) /\ nonempty (description c) /\ nonempty (icon c)) cs.
Proof.
  by_variant v props.
  all: split; [ reflexivity | ].
  all: eexists; split; [ vm_compute; reflexivity | ].
  all: split; [ reflexivity | ].
  all: repeat constructor; discriminate.
Qed.

(** C2. A render of the landing page produces a card list of length 6
    whose set of titles is exactly the six topic titles. *)
Theorem landing_page_title_set (Props : Type) (v : Variant) (props : Props) :
  exists cs, feature_cards (render v props) = Some cs /\
    length cs = 6 /\
    list_to_set (title <$> cs) =@{gset string}
      {[ "Kotlin OOP"; "Kotlin Functions"; "Coroutines & Flows";
         "Conditionals & Loops"; "Arrays & Lists"; "Compose Basics" ]}.
Proof.
  by_variant v props.
  all: eexists; split; [ vm_compute; reflexivity | ].
  all: split; [ reflexivity | ].
  all: cbn [fmap list_fmap title list_to_set foldr]; set_solver.
Qed.

(** C3. In every render of the landing page, in either variant, the page
    has one link, the call-to-action of the hero banner, and its target
    is the documentation index ["/docs"]. *)
Theorem call_to_action_targets_docs (Props : Type) (v : Variant) (props : Props) :
  link_targets (render v props) = [Some "/docs"] /\
  List.map (str_prop "href")
    (List.filter (has_tag (Comp Link)) (hero_items (render v props))) = [Some "/docs"].
Proof. by_variant v props; split; reflexivity. Qed.

(** C7. The landing page is a function of its literals alone. The
    component as written takes nothing from its surroundings (it reads no
    name and calls nothing), so run in any two environments it succeeds
    with the same output, the tree of literals; and the component drops
    whatever it is handed. *)
Theorem landing_page_deterministic (P Q : Type) (v : Variant) (p : P) (q : Q)
    (env1 env2 : Source.Env) :
  Source.accesses (Source.HomePage v) = [] /\
  Source.eval env1 (Source.HomePage v) = Some [render v p] /\
  Source.eval env2 (Source.HomePage v) = Some [render v q] /\
  Source.eval env1 (Source.HomePage v) = Source.eval env2 (Source.HomePage v) /\
  render v p = render v q.
Proof.
  assert (Hpure : Source.accesses (Source.HomePage v) = []) by (destruct v; reflexivity).
  assert (Hrun : forall env, Source.eval env (Source.HomePage v) = Some [render v tt]).
  { intros env. destruct v; vm_compute; reflexivity. }
  split; [ exact Hpure | ].
  split; [ rewrite (render_unit v p); apply Hrun | ].
  split; [ rewrite (render_unit v q); apply Hrun | ].
  split; [ apply eval_pure, Hpure | ].
  apply render_drops_props.
Qed.

(** C8, as stated, fails: the hero banner of the variant with the icon
    holds a fourth element, so it is not just heading, tagline and link. *)
Lemma hero_banner_not_only_three :
  hero_shape (render WithIcon tt) <> [Some (Host "h1"); Some (Host "p"); Some (Comp Link)].
Proof. vm_compute. discriminate. Qed.

(** C8, amended. The hero banner holds a title heading, a tagline and a
    call-to-action link to the docs index, in this order. In the variant
    of part_000 these three are all its elements; in the variant of
    part_001 they come after one more element, the site icon image. The
    banner is the first of the two children of [main], one section with
    one container [div]; its elements are the section, the container and
    these items, and nothing else. *)
Theorem hero_banner_contents (Props : Type) (v : Variant) (props : Props) :
  hero_shape (render v props) =
    (match v with
     | Plain => []
     | WithIcon => [Some (Comp Image)]
     end ++ [Some (Host "h1"); Some (Host "p"); Some (Comp Link)])%list /\
  List.map text_content (List.filter (has_tag (Host "h1")) (hero_items (render v props)))
    = ["Android Notes by Me"] /\
  List.map text_content (List.filter (has_tag (Host "p")) (hero_items (render v props)))
    = ["Who am I? You don't need to know that."] /\
  List.map (str_prop "href") (List.filter (has_tag (Comp Link)) (hero_items (render v props)))
    = [Some "/docs"] /\
  List.map (str_prop "src") (List.filter (has_tag (Comp Image)) (hero_items (render v props)))
    = match v with
      | Plain => []
      | WithIcon => [Some "/images/android-sunset-icon.png"]
      end /\
  exists hero container,
    children_of (render v props) = hero :: features_sections (render v props) /\
    hero_sections (render v props) = [hero] /\
    is_features hero = false /\
    children_of hero = [container] /\
    tag_of container = Some (Host "div") /\
    children_of container = hero_items (render v props) /\
    List.map tag_of (Tree.all_elements hero) =
      ([Some (Host "section"); Some (Host "div")] ++
       match v with
       | Plain => []
       | WithIcon => [Some (Comp Image)]
       end ++ [Some (Host "h1"); Some (Host "p"); Some (Comp Link)])%list.
Proof.
  by_variant v props.
  all: repeat (split; [ reflexivity | ]).
  all: do 2 eexists.
  all: split; [ reflexivity | ].
  all: split; [ reflexivity | ].
  all: split; [ reflexivity | ].
  all: split; [ reflexivity | ].
  all: split; [ reflexivity | ].
  all: split; reflexivity.
Qed.

(** C9. The icon of each of the six feature cards is a single glyph: its
    bytes are the UTF-8 form of one code point, a pictograph. *)
Theorem card_icons_single_glyph (Props : Type) (v : Variant) (props : Props) :
  exists cs, feature_cards (render v props) = Some cs /\
    length cs = 6 /\
    Forall (fun c => Utf8.single_glyph (icon c)) cs.
Proof.
  by_variant v props.
  all: eexists; split; [ vm_compute; reflexivity | ].
  all: split; [ reflexivity | ].
  all: repeat constructor.
  all: eexists; split; [ vm_compute; reflexivity | reflexivity ].
Qed.

(** C10. The two source variants of [HomePage] render the same
    feature-card list: the same [Card] elements, hence the same six
    records, title by title, description by description and icon by
    icon, in the same order. *)
Theorem variants_same_cards (P Q : Type) (p : P) (q : Q) :
  card_elements (Part000.HomePage p) = card_elements (Part001.HomePage q) /\
  feature_cards (Part000.HomePage p) = feature_cards (Part001.HomePage q) /\
  exists cs, feature_cards (Part000.HomePage p) = Some cs /\ length cs = 6.
Proof.
  split; [ reflexivity | ].
  split; [ reflexivity | ].
  eexists; split; [ vm_compute; reflexivity | reflexivity ].
Qed.

(** ** The root shell *)

Section RootShell.

Variable JetBrains_Mono : Shell.FontOptions -> Shell.NextFont.
Variable Fira_Code : Shell.FontOptions -> Shell.NextFontWithVariable.

#[local] Abbreviation Layout := (Shell.Layout JetBrains_Mono Fira_Code).
#[local] Abbreviation jetbrainsMono := (Shell.jetbrainsMono JetBrains_Mono).
#[local] Abbreviation firaCode := (Shell.firaCode Fira_Code).

(** The attributes of the [html] element, whatever the children. *)
Lemma layout_props (children : list Node) :
  tag_of (Layout children) = Some (Host "html") /\
  Shell.document_lang (Layout children) = Some "en" /\
  Shell.document_class (Layout children) =
    Some (Shell.className jetbrainsMono ++ " " ++ Shell.variable firaCode).
Proof.
  split; [ reflexivity | ].
  unfold Shell.document_lang, Shell.document_class, str_prop, Shell.Layout, jsx.
  cbn [props_of jsx_props foldl fst snd].
  split.
  - rewrite lookup_insert_ne by discriminate.
    rewrite lookup_insert_ne by discriminate.
    rewrite lookup_insert_eq. reflexivity.
  - rewrite lookup_insert_ne by discriminate.
    rewrite lookup_insert_eq. reflexivity.
Qed.

(** C4. The children handed to the root shell have no influence on the
    [html] element's language attribute, class string or font tokens:
    any two child trees give the same ones. *)
Theorem layout_children_frame (children1 children2 : list Node) :
  Shell.document_lang (Layout children1) = Shell.document_lang (Layout children2) /\
  Shell.document_class (Layout children1) = Shell.document_class (Layout children2) /\
  Shell.document_tokens (Layout children1) = Shell.document_tokens (Layout children2) /\
  props_of (Layout children1) = props_of (Layout children2).
Proof. repeat split; reflexivity. Qed.

(** C5. For every tree of children, the root shell's [html] element has
    language ["en"], and its class string is made of the two fonts the
    shell loads: the class name JetBrains Mono is given for the latin
    subset, a space, and the variable class Fira Code is given for the
    latin subset and the variable [--fira-code]. Its tokens are those of
    the one followed by those of the other. *)
Theorem layout_lang_and_fonts (children : list Node) :
  tag_of (Layout children) = Some (Host "html") /\
  Shell.document_lang (Layout children) = Some "en" /\
  Shell.document_class (Layout children) =
    Some (Shell.className
            (JetBrains_Mono {| Shell.subsets := ["latin"];
                               Shell.variable_name := None |})
          ++ " " ++
          Shell.variable
            (Fira_Code {| Shell.subsets := ["latin"];
                          Shell.variable_name := Some "--fira-code" |})) /\
  Shell.document_tokens (Layout children) =
    (Shell.class_tokens
       (Shell.className
          (JetBrains_Mono {| Shell.subsets := ["latin"];
                             Shell.variable_name := None |})) ++
     Shell.class_tokens
       (Shell.variable
          (Fira_Code {| Shell.subsets := ["latin"];
                        Shell.variable_name := Some "--fira-code" |})))%list /\
  jetbrainsMono = JetBrains_Mono {| Shell.subsets := ["latin"];
                                    Shell.variable_name := None |} /\
  firaCode = Fira_Code {| Shell.subsets := ["latin"];
                          Shell.variable_name := Some "--fira-code" |}.
Proof.
  destruct (layout_props children) as (Htag & Hlang & Hclass).
  split; [ exact Htag | ]. split; [ exact Hlang | ]. split; [ exact Hclass | ].
  split; [ | split; reflexivity ].
  unfold Shell.document_tokens. rewrite Hclass.
  apply class_tokens_space.
Qed.

End RootShell.

(** ** Content documents *)

(** C6. Each content document of the source declares a title and a
    description in its front-matter block, whatever its prose. *)
Theorem documents_declare_title_and_description (body1 body2 : list string) :
  Forall (fun doc => Content.declares "title" doc /\ Content.declares "description" doc)
    (Content.documents body1 body2).
Proof.
  unfold Content.documents, Content.declares, Content.field_of.
  repeat constructor.
  all: rewrite ?front_matter_android_components, ?front_matter_jetpack_compose.
  all: vm_compute; eauto.
Qed.

(** * Further properties of the shell and the page *)

(** ** Helper lemmas *)

Lemma append_empty_r (s : string) : s ++ "" = s.
Proof.
  induction s as [|c s IH]; [ reflexivity | ].
  change (String c s ++ "") with (String c (s ++ "")). now rewrite IH.
Qed.

Lemma append_assoc (a b c : string) : (a ++ b) ++ c = a ++ b ++ c.
Proof.
  induction a as [|x a IH]; [ reflexivity | ].
  change ((String x a ++ b) ++ c) with (String x ((a ++ b) ++ c)).
  change (String x a ++ b ++ c) with (String x (a ++ b ++ c)).
  now rewrite IH.
Qed.

Lemma Tag_eqb_refl (t : Tag) : Tag_eqb t t = true.
Proof. destruct t as [s | []]; cbn; [ apply String.eqb_refl | .. ]; reflexivity. Qed.

Lemma Tag_eqb_eq (a b : Tag) : Tag_eqb a b = true -> a = b.
Proof.
  destruct a as [x | x], b as [y | y]; cbn; try discriminate.
  - intros H. apply String.eqb_eq in H. now subst.
  - destruct x, y; cbn; congruence.
Qed.

Lemma Tag_eqb_neq (a b : Tag) : a <> b -> Tag_eqb a b = false.
Proof.
  intros Hne. destruct (Tag_eqb a b) eqn:E; [ | reflexivity ].
  apply Tag_eqb_eq in E. contradiction.
Qed.

(** A run of characters without whitespace extends the token at hand. *)
Lemma tokens_from_token (s tok : string) :
  forallb (fun c => negb (Shell.is_space c)) (list_ascii_of_string s) = true ->
  Shell.tokens_from tok s = Shell.flush (tok ++ s).
Proof.
  revert tok. induction s as [|c s IH]; intros tok H.
  - now rewrite append_empty_r.
  - cbn [list_ascii_of_string forallb] in H.
    apply andb_prop in H as [Hc Hs].
    cbn [Shell.tokens_from].
    apply negb_true_iff in Hc. rewrite Hc.
    rewrite (IH _ Hs), append_assoc. reflexivity.
Qed.

Lemma class_tokens_token (s : string) :
  Classes.is_token s = true -> Shell.class_tokens s = [s].
Proof.
  unfold Classes.is_token. intros H.
  apply andb_prop in H as [Hne Hs].
  unfold Shell.class_tokens. rewrite (tokens_from_token _ _ Hs).
  destruct s; [ discriminate | reflexivity ].
Qed.

Section ShellFacts.

Variable JetBrains_Mono : Shell.FontOptions -> Shell.NextFont.
Variable Fira_Code : Shell.FontOptions -> Shell.NextFontWithVariable.

#[local] Abbreviation Layout := (Shell.Layout JetBrains_Mono Fira_Code).

(** The elements the shell itself adds are [html], [body] and the
    provider; for any other tag the search goes into the children. *)
Lemma layout_elements (t : Tag) (children : list Node) :
  Tag_eqb t (Host "html") = false ->
  Tag_eqb t (Host "body") = false ->
  Tag_eqb t (Comp RootProvider) = false ->
  elements_by_tag t (Layout children) = flat_map (elements_by_tag t) children.
Proof.
  intros H1 H2 H3. unfold Shell.Layout, jsx.
  cbn [elements_by_tag flat_map]. rewrite H1, H2, H3.
  cbn [app]. now rewrite !app_nil_r.
Qed.

(** The children sit, unchanged, below [html], [body] and the provider. *)
Lemma layout_slot (children : list Node) :
  flat_map children_of (flat_map children_of (children_of (Layout children))) = children.
Proof. cbn. apply app_nil_r. Qed.

End ShellFacts.

Lemma map_flat_map {A B C : Type} (f : B -> C) (g : A -> list B) (l : list A) :
  List.map f (flat_map g l) = flat_map (fun x => List.map f (g x)) l.
Proof.
  induction l as [|x l IH]; [ reflexivity | ].
  cbn [flat_map]. now rewrite List.map_app, IH.
Qed.

Lemma filter_flat_map {A B : Type} (f : B -> bool) (g : A -> list B) (l : list A) :
  List.filter f (flat_map g l) = flat_map (fun x => List.filter f (g x)) l.
Proof.
  induction l as [|x l IH]; [ reflexivity | ].
  cbn [flat_map]. now rewrite List.filter_app, IH.
Qed.

Lemma flat_map_flat_map {A B C : Type} (f : B -> list C) (g : A -> list B) (l : list A) :
  flat_map f (flat_map g l) = flat_map (fun x => flat_map f (g x)) l.
Proof.
  induction l as [|x l IH]; [ reflexivity | ].
  cbn [flat_map]. now rewrite List.flat_map_app, IH.
Qed.

(** ** The shell around a page *)

(** X1. The shell adds no element of its own beyond [html], [body] and
    the provider: the elements of any other tag in the document are those
    of the children, in order. *)
Theorem shell_adds_only_wrappers
    (JetBrains_Mono : Shell.FontOptions -> Shell.NextFont)
    (Fira_Code : Shell.FontOptions -> Shell.NextFontWithVariable)
    (t : Tag) (children : list Node) :
  t <> Host "html" -> t <> Host "body" -> t <> Comp RootProvider ->
  elements_by_tag t (Shell.Layout JetBrains_Mono Fira_Code children) =
  flat_map (elements_by_tag t) children.
Proof.
  intros H1 H2 H3. apply layout_elements; now apply Tag_eqb_neq.
Qed.

Lemma shell_adds_only_wrappers_witness :
  Comp Card <> Host "html" /\ Comp Card <> Host "body" /\
  Comp Card <> Comp RootProvider /\
  elements_by_tag (Comp Card)
    (Shell.Layout Sample.mono Sample.code [Part001.HomePage tt]) =
  flat_map (elements_by_tag (Comp Card)) [Part001.HomePage tt].
Proof.
  split; [ discriminate | ]. split; [ discriminate | ]. split; [ discriminate | ].
  apply shell_adds_only_wrappers; discriminate.
Defined.

(** X2. Wrapping in the shell keeps what a page shows: the sections,
    the links and the card elements of the document are those of the
    children, and a page alone in the shell keeps its hero items and its
    feature cards. *)
Theorem shell_keeps_page_content
    (JetBrains_Mono : Shell.FontOptions -> Shell.NextFont)
    (Fira_Code : Shell.FontOptions -> Shell.NextFontWithVariable)
    (children : list Node) (page : Node) :
  sections (Shell.Layout JetBrains_Mono Fira_Code children) = flat_map sections children /\
  link_targets (Shell.Layout JetBrains_Mono Fira_Code children) =
    flat_map link_targets children /\
  card_elements (Shell.Layout JetBrains_Mono Fira_Code children) =
    flat_map card_elements children /\
  hero_items (Shell.Layout JetBrains_Mono Fira_Code [page]) = hero_items page /\
  feature_cards (Shell.Layout JetBrains_Mono Fira_Code [page]) = feature_cards page.
Proof.
  assert (Hs : forall cs, sections (Shell.Layout JetBrains_Mono Fira_Code cs)
                          = flat_map sections cs).
  { intros cs. unfold sections. now apply layout_elements. }
  assert (Hc : forall cs, card_elements (Shell.Layout JetBrains_Mono Fira_Code cs)
                          = flat_map card_elements cs).
  { intros cs. unfold card_elements, features_sections.
    now rewrite Hs, filter_flat_map, flat_map_flat_map. }
  split; [ apply Hs | ].
  split.
  { unfold link_targets. rewrite layout_elements by reflexivity. apply map_flat_map. }
  split; [ apply Hc | ].
  split.
  - unfold hero_items, hero_sections. rewrite Hs.
    cbn [flat_map]. now rewrite app_nil_r.
  - unfold feature_cards. rewrite Hc. cbn [flat_map]. now rewrite app_nil_r.
Qed.

(** X3. The shell has no text of its own: the text of the document is
    the text of the children, in order. *)
Theorem shell_adds_no_text
    (JetBrains_Mono : Shell.FontOptions -> Shell.NextFont)
    (Fira_Code : Shell.FontOptions -> Shell.NextFontWithVariable)
    (children : list Node) :
  text_content (Shell.Layout JetBrains_Mono Fira_Code children) =
  fold_right (fun c acc => text_content c ++ acc) "" children.
Proof.
  unfold Shell.Layout, jsx. cbn [text_content fold_right].
  now rewrite !append_empty_r.
Qed.

(** X4. When the font module returns one class per family (a class name
    and a variable class, each a single token), the [html] element
    carries exactly these two class tokens, the class name first. *)
Theorem shell_two_tokens
    (JetBrains_Mono : Shell.FontOptions -> Shell.NextFont)
    (Fira_Code : Shell.FontOptions -> Shell.NextFontWithVariable)
    (children : list Node) :
  Classes.is_token (Shell.className (Shell.jetbrainsMono JetBrains_Mono)) = true ->
  Classes.is_token (Shell.variable (Shell.firaCode Fira_Code)) = true ->
  Shell.document_tokens (Shell.Layout JetBrains_Mono Fira_Code children) =
    [ Shell.className (Shell.jetbrainsMono JetBrains_Mono);
      Shell.variable (Shell.firaCode Fira_Code) ].
Proof.
  intros Ha Hb.
  destruct (layout_props JetBrains_Mono Fira_Code children) as (_ & _ & Hclass).
  unfold Shell.document_tokens. rewrite Hclass, class_tokens_space.
  now rewrite (class_tokens_token _ Ha), (class_tokens_token _ Hb).
Qed.

Lemma shell_two_tokens_witness :
  Classes.is_token (Shell.className (Shell.jetbrainsMono Sample.mono)) = true /\
  Classes.is_token (Shell.variable (Shell.firaCode Sample.code)) = true /\
  Shell.document_tokens (Shell.Layout Sample.mono Sample.code [Part000.HomePage tt]) =
    [ "__className_3c557b"; "__variable_591c9e" ].
Proof.
  split; [ reflexivity | ]. split; [ reflexivity | ].
  apply (shell_two_tokens Sample.mono Sample.code); reflexivity.
Defined.

(** X5. The fonts reach the document through the class string of
    [html] alone: with other loaders the tag, the children and every
    other attribute of the document are the same. *)
Theorem fonts_only_touch_class
    (JetBrains_Mono JetBrains_Mono' : Shell.FontOptions -> Shell.NextFont)
    (Fira_Code Fira_Code' : Shell.FontOptions -> Shell.NextFontWithVariable)
    (children : list Node) :
  tag_of (Shell.Layout JetBrains_Mono Fira_Code children) =
    tag_of (Shell.Layout JetBrains_Mono' Fira_Code' children) /\
  children_of (Shell.Layout JetBrains_Mono Fira_Code children) =
    children_of (Shell.Layout JetBrains_Mono' Fira_Code' children) /\
  delete "className" (props_of (Shell.Layout JetBrains_Mono Fira_Code children)) =
    delete "className" (props_of (Shell.Layout JetBrains_Mono' Fira_Code' children)) /\
  dom (props_of (Shell.Layout JetBrains_Mono Fira_Code children)) =@{gset string}
    {[ "lang"; "className"; "suppressHydrationWarning" ]}.
Proof.
  split; [ reflexivity | ]. split; [ reflexivity | ].
  unfold Shell.Layout, jsx. cbn [props_of jsx_props foldl fst snd].
  split.
  - rewrite !(delete_insert_ne _ "className" "suppressHydrationWarning") by discriminate.
    now rewrite !delete_insert_eq.
  - rewrite !dom_insert_L, dom_empty_L. set_solver.
Qed.

(** X6. The shell loses nothing of its children: documents that are
    equal were rendered from equal children. *)
Theorem layout_injective
    (JetBrains_Mono : Shell.FontOptions -> Shell.NextFont)
    (Fira_Code : Shell.FontOptions -> Shell.NextFontWithVariable)
    (children1 children2 : list Node) :
  Shell.Layout JetBrains_Mono Fira_Code children1 =
  Shell.Layout JetBrains_Mono Fira_Code children2 ->
  children1 = children2.
Proof.
  intros H.
  rewrite <- (layout_slot JetBrains_Mono Fira_Code children1), H.
  apply layout_slot.
Qed.

Lemma layout_injective_witness :
  Shell.Layout Sample.mono Sample.code [Part000.HomePage tt] =
  Shell.Layout Sample.mono Sample.code [Part000.HomePage 0] /\
  [@Part000.HomePage unit tt] = [@Part000.HomePage nat 0].
Proof.
  split; [ reflexivity | ].
  apply (layout_injective Sample.mono Sample.code). reflexivity.
Defined.

(** ** The two variants of the page, side by side *)

(** X7. The two variants are the same tree but for two places in the
    hero banner: the variant of part_001 opens the banner with the icon
    image, and its link has another class string. Both pages are a
    [main] with the same attributes and two children, a hero section and
    the same feature-card section; the hero sections have the same
    attributes and one container with the same attributes; the
    containers hold the same heading and tagline and a link with the
    same target and text. *)
Theorem variants_differ_only_in_hero (P Q : Type) (p : P) (q : Q) :
  exists main_props hero_props box_props features img heading tagline
         link_props0 link_props1 link_text,
    Part000.HomePage p =
      Elem (Host "main") main_props
        [ Elem (Host "section") hero_props
            [ Elem (Host "div") box_props
                [ heading; tagline; Elem (Comp Link) link_props0 link_text ] ];
          features ] /\
    Part001.HomePage q =
      Elem (Host "main") main_props
        [ Elem (Host "section") hero_props
            [ Elem (Host "div") box_props
                [ img; heading; tagline; Elem (Comp Link) link_props1 link_text ] ];
          features ] /\
    tag_of img = Some (Comp Image) /\
    children_of img = [] /\
    features_sections (Part000.HomePage p) = [features] /\
    features_sections (Part001.HomePage q) = [features] /\
    hero_items (Part000.HomePage p) =
      [ heading; tagline; Elem (Comp Link) link_props0 link_text ] /\
    hero_items (Part001.HomePage q) =
      [ img; heading; tagline; Elem (Comp Link) link_props1 link_text ] /\
    delete "className" link_props0 = delete "className" link_props1 /\
    link_props0 !! "href" = Some (PStr "/docs") /\
    link_props0 !! "className" <> link_props1 !! "className".
Proof.
  do 10 eexists.
  split; [ reflexivity | ].
  split; [ reflexivity | ].
  split; [ reflexivity | ].
  split; [ reflexivity | ].
  split; [ reflexivity | ].
  split; [ reflexivity | ].
  split; [ reflexivity | ].
  split; [ reflexivity | ].
  split; [ vm_compute; reflexivity | ].
  split; [ vm_compute; reflexivity | ].
  vm_compute. discriminate.
Qed.

(** X8. The class tokens of the link of part_001 are those of the link
    of part_000, in the same order, with four of them put under the
    [dark:] prefix, followed by four more tokens, [bg-fd-accent] among
    them. So each token of the earlier link is on the later link as it
    is or under [dark:], and [bg-fd-accent] is on the later link and not
    on the earlier one. *)
Theorem link_classes_dark_variant (P Q : Type) (p : P) (q : Q) :
  Forall
    (fun t => t ∈ Classes.link_tokens (Part001.HomePage q) \/
              ("dark:" ++ t) ∈ Classes.link_tokens (Part001.HomePage q))
    (Classes.link_tokens (Part000.HomePage p)) /\
  length (Classes.link_tokens (Part000.HomePage p)) = 10 /\
  length (Classes.link_tokens (Part001.HomePage q)) = 14 /\
  ("bg-fd-accent" ∉ Classes.link_tokens (Part000.HomePage p)) /\
  ("bg-fd-accent" ∈ Classes.link_tokens (Part001.HomePage q)) /\
  List.map Classes.strip_dark (take 10 (Classes.link_tokens (Part001.HomePage q))) =
    Classes.link_tokens (Part000.HomePage p) /\
  List.filter (String.prefix "dark:") (Classes.link_tokens (Part001.HomePage q)) =
    [ "dark:hover:bg-fd-primary"; "dark:hover:text-fd-primary-foreground";
      "dark:text-white"; "dark:bg-fd-primary-foreground" ] /\
  drop 10 (Classes.link_tokens (Part001.HomePage q)) =
    [ "bg-fd-accent"; "hover:bg-fd-primary"; "hover:text-white";
      "text-fd-primary-foreground" ].
Proof.
  change (Classes.link_tokens (Part000.HomePage p))
    with (Classes.link_tokens (Part000.HomePage tt)).
  change (Classes.link_tokens (Part001.HomePage q))
    with (Classes.link_tokens (Part001.HomePage tt)).
  split; [ apply (bool_decide_unpack _); vm_compute; reflexivity | ].
  split; [ reflexivity | ].
  split; [ reflexivity | ].
  split; [ apply (bool_decide_unpack _); vm_compute; reflexivity | ].
  split; [ apply (bool_decide_unpack _); vm_compute; reflexivity | ].
  split; [ vm_compute; reflexivity | ].
  split; vm_compute; reflexivity.
Qed.

(** X9. The feature cards do not navigate. In both variants every
    [Card] element of the page is one of the feature-card section; each
    has the four attributes title, description, icon and draggable, the
    last one set, and no others (no [href] among them), and has no
    children; the cards are the children of the one [Cards] container,
    which holds nothing else. The only element of the page with a target
    is the call-to-action link, which holds text alone, and the page has
    no anchor: no card, and nothing around a card, leads anywhere. *)
Theorem cards_do_not_navigate (Props : Type) (v : Variant) (props : Props) :
  elements_by_tag (Comp Card) (render v props) = card_elements (render v props) /\
  Forall
    (fun c => dom (props_of c) =@{gset string}
                {[ "title"; "description"; "icon"; "draggable" ]} /\
              props_of c !! "draggable" = Some (PBool true) /\
              props_of c !! "href" = None /\
              children_of c = [])
    (elements_by_tag (Comp Card) (render v props)) /\
  List.map children_of (elements_by_tag (Comp Cards) (render v props)) =
    [elements_by_tag (Comp Card) (render v props)] /\
  Tree.elements_with_href (render v props) =
    elements_by_tag (Comp Link) (render v props) /\
  length (Tree.elements_with_href (render v props)) = 1 /\
  elements_by_tag (Host "a") (render v props) = [] /\
  Forall (fun l => Forall (fun c => tag_of c = None) (children_of l))
    (elements_by_tag (Comp Link) (render v props)).
Proof.
  by_variant v props.
  all: split; [ reflexivity | ].
  all: split; [ | split; [ reflexivity | ] ].
  all: try (do 6 (constructor; [ repeat split; vm_compute; reflexivity | ]); constructor).
  all: split; [ vm_compute; reflexivity | ].
  all: split; [ reflexivity | ].
  all: split; [ reflexivity | ].
  all: constructor; [ constructor; [ reflexivity | constructor ] | constructor ].
Qed.

(** ** Fonts, images and the whole document *)

(** X10. The shell asks each loader once, for the latin subset (and, of
    Fira Code, for the variable [--fira-code]): loaders that agree on
    these two requests give the same document, whatever they answer to
    other requests. *)
Theorem layout_uses_two_font_requests
    (JetBrains_Mono JetBrains_Mono' : Shell.FontOptions -> Shell.NextFont)
    (Fira_Code Fira_Code' : Shell.FontOptions -> Shell.NextFontWithVariable)
    (children : list Node) :
  JetBrains_Mono {| Shell.subsets := ["latin"]; Shell.variable_name := None |} =
  JetBrains_Mono' {| Shell.subsets := ["latin"]; Shell.variable_name := None |} ->
  Fira_Code {| Shell.subsets := ["latin"]; Shell.variable_name := Some "--fira-code" |} =
  Fira_Code' {| Shell.subsets := ["latin"]; Shell.variable_name := Some "--fira-code" |} ->
  Shell.Layout JetBrains_Mono Fira_Code children =
  Shell.Layout JetBrains_Mono' Fira_Code' children.
Proof.
  intros Hm Hc.
  unfold Shell.Layout, Shell.jetbrainsMono, Shell.firaCode.
  now rewrite Hm, Hc.
Qed.

Lemma layout_uses_two_font_requests_witness :
  Sample.mono {| Shell.subsets := ["latin"]; Shell.variable_name := None |} =
  Sample.mono_latin {| Shell.subsets := ["latin"]; Shell.variable_name := None |} /\
  Sample.code {| Shell.subsets := ["latin"]; Shell.variable_name := Some "--fira-code" |} =
  Sample.code {| Shell.subsets := ["latin"]; Shell.variable_name := Some "--fira-code" |} /\
  Sample.mono {| Shell.subsets := []; Shell.variable_name := None |} <>
  Sample.mono_latin {| Shell.subsets := []; Shell.variable_name := None |} /\
  Shell.Layout Sample.mono Sample.code [Part000.HomePage tt] =
  Shell.Layout Sample.mono_latin Sample.code [Part000.HomePage tt].
Proof.
  split; [ reflexivity | ]. split; [ reflexivity | ]. split; [ discriminate | ].
  apply layout_uses_two_font_requests; reflexivity.
Defined.

(** X11. Every image of the page is given what the image component
    needs to reserve its place: a source path, an alternative text and a
    width and a height, here equal (a square of 512). The variant of
    part_000 has no image, that of part_001 has one. *)
Theorem images_are_sized (Props : Type) (v : Variant) (props : Props) :
  Forall
    (fun i => (exists src, str_prop "src" i = Some src /\ nonempty src) /\
              (exists alt, str_prop "alt" i = Some alt /\ nonempty alt) /\
              props_of i !! "width" = Some (PNum 512) /\
              props_of i !! "height" = Some (PNum 512))
    (elements_by_tag (Comp Image) (render v props)) /\
  length (elements_by_tag (Comp Image) (render v props)) =
    match v with Plain => 0 | WithIcon => 1 end.
Proof.
  by_variant v props.
  all: split; [ | reflexivity ].
  - constructor.
  - constructor; [ | constructor ].
    split; [ eexists; split; [ vm_compute; reflexivity | discriminate ] | ].
    split; [ eexists; split; [ vm_compute; reflexivity | discriminate ] | ].
    split; vm_compute; reflexivity.
Qed.

(** X12. The landing page in the shell is one well-formed document:
    it has a single [html], [body], provider, [main] and [h1] element,
    two sections, the language ["en"], and the six feature cards and the
    one link of the page. *)
Theorem landing_document_well_formed
    (JetBrains_Mono : Shell.FontOptions -> Shell.NextFont)
    (Fira_Code : Shell.FontOptions -> Shell.NextFontWithVariable)
    (Props : Type) (v : Variant) (props : Props) :
  let doc := Shell.Layout JetBrains_Mono Fira_Code [render v props] in
  List.map (fun t => length (elements_by_tag t doc))
    [ Host "html"; Host "body"; Comp RootProvider; Host "main"; Host "h1";
      Host "section"; Comp Cards; Comp Card; Comp Link ]
    = [1; 1; 1; 1; 1; 2; 1; 6; 1] /\
  elements_by_tag (Host "html") doc = [doc] /\
  Shell.document_lang doc = Some "en" /\
  link_targets doc = [Some "/docs"] /\
  feature_cards doc = feature_cards (render v props) /\
  (exists cs, feature_cards doc = Some cs /\ length cs = 6).
Proof.
  intros doc. subst doc.
  destruct (layout_props JetBrains_Mono Fira_Code [render v props]) as (_ & Hlang & _).
  rewrite (render_unit v props).
  split; [ destruct v; reflexivity | ].
  split; [ destruct v; reflexivity | ].
  split; [ now rewrite <- (render_unit v props) | ].
  split; [ destruct v; reflexivity | ].
  split; [ destruct v; reflexivity | ].
  destruct v; eexists; (split; [ vm_compute; reflexivity | reflexivity ]).
Qed.
